(** * ChatAICV: the retrieval-augmented chat backend of [main.js]

    A shallow embedding of the server's four pieces of logic

    - [initialize]            (corpus load and vector-store build),
    - [findRelevantExamples]  (similarity lookup with local recovery),
    - [preparePrompt]         (prompt composition),
    - the [POST /chat] route  (conversation orchestration),

    together with the start-up sequencing at the bottom of the script.

    JavaScript effects are modelled by a small state-and-exception monad
    [Js S]: a computation receives the current state and returns either a
    value or a thrown exception, together with the state it leaves behind
    (state changes made before a [throw] stay visible, as in JavaScript).
    Everything the script obtains from outside (the file system, the
    embedding provider, the FAISS index, the chat-completion provider and
    the runtime's [String.prototype.trim]) is an oracle gathered in [Env];
    theorems quantify over every such environment.  Each external call is
    recorded in the trace [calls] so that what was submitted can be
    observed.  Console output is not part of the model. *)

From Stdlib Require Import String List Bool Arith Lia Ascii QArith.
From ExtLib Require Import Structures.Monad.
Import ListNotations MonadNotation.
Close Scope Q_scope.
Open Scope monad_scope.
Open Scope list_scope.
Open Scope string_scope.

(** ** Exceptions and results *)

Inductive Exn : Type :=
| TypeError (what : string)        (* raised by the runtime itself *)
| ExternalError (what : string).   (* a rejected promise of a collaborator *)

Inductive Result (A : Type) : Type :=
| Ok (a : A)
| Throw (e : Exn).

Arguments Ok {A} a.
Arguments Throw {A} e.

(** ** The effect monad *)

Definition Js (S A : Type) : Type := S -> Result A * S.

Definition js_ret {S A} (a : A) : Js S A := fun s => (Ok a, s).

Definition js_bind {S A B} (m : Js S A) (k : A -> Js S B) : Js S B :=
  fun s =>
    match m s with
    | (Ok a, s') => k a s'
    | (Throw e, s') => (Throw e, s')
    end.

#[export] Instance Monad_Js (S : Type) : Monad (Js S) :=
  {| ret := fun _ a => js_ret a;
     bind := fun _ _ m k => js_bind m k |}.

(** [throw e] *)
Definition throw {S A} (e : Exn) : Js S A := fun s => (Throw e, s).

(** [try { body } catch (error) { handler }] *)
Definition try_catch {S A} (body : Js S A) (handler : Exn -> Js S A) : Js S A :=
  fun s =>
    match body s with
    | (Ok a, s') => (Ok a, s')
    | (Throw e, s') => handler e s'
    end.

Definition gets {S A} (f : S -> A) : Js S A := fun s => (Ok (f s), s).
Definition modify {S} (f : S -> S) : Js S unit := fun s => (Ok tt, f s).

(** Settles a computation on an already known outcome. *)
Definition settle {S A} (r : Result A) : Js S A := fun s => (r, s).

(** ** Strings *)

(** The line feed written [\n] in the script. *)
Definition LF : string := String "010"%char EmptyString.

(** [s.includes(pat)] *)
Fixpoint includes (s pat : string) : bool :=
  String.prefix pat s ||
  match s with
  | EmptyString => false
  | String _ s' => includes s' pat
  end.

(** [Array.prototype.map] with the element index handed to the callback. *)
Fixpoint mapi_from {A B} (i : nat) (f : A -> nat -> B) (l : list A) : list B :=
  match l with
  | [] => []
  | x :: l' => f x i :: mapi_from (S i) f l'
  end.

Definition mapi {A B} (f : A -> nat -> B) (l : list A) : list B :=
  mapi_from 0 f l.

(** ** Data *)

(** An item of [cv_dataset.json]. *)
Module CVRecord.
Record t : Type := mk { question : string; answer : string }.
End CVRecord.

(** The value of [JSON.parse(data)], as the script can observe it.  An
    array without a [null] item is seen through the texts that the
    [question] and [answer] of its items render to.  On every other value
    (not an array, or an array holding [null]) the expression
    [cvDataset.map(item => `${item.question} ${item.answer}`)] throws;
    such a value is seen through what [cvDataset[i]] yields: an
    exception, nothing ([undefined] or [null]), or an item. *)
Inductive Dataset : Type :=
| Records (items : list CVRecord.t)
| Malformed (at_index : nat -> Result (option CVRecord.t)).

(** The metadata object [{ id: i }] and a stored document. *)
Record Metadata : Type := { id : nat }.

Record Document : Type := { pageContent : string; metadata : Metadata }.

(** The vector store, seen through its document store. *)
Record FaissStore : Type := { docstore : list Document }.

(** A conversation turn [{ role, content }]. *)
Record Turn : Type := { role : string; content : string }.

(** The chat-completion provider's request and response. *)
Module OpenAI.
Record Params : Type :=
  { model : string;
    messages : list Turn;
    max_tokens : nat;
    temperature : Q;
    top_p : Q;
    presence_penalty : Q;
    frequency_penalty : Q }.

(** [content] is [null] when the provider returns no text. *)
Record Message : Type := { content : option string }.
Record Choice : Type := { message : Message }.
Record ChatCompletion : Type := { choices : list Choice }.
End OpenAI.

(** ** The outside world *)

Inductive Call : Type :=
| ReadFile (path encoding : string)
| FromTexts (texts : list string) (metadatas : list Metadata)
| SimilaritySearch (query : string) (k : nat)
| ChatCompletionsCreate (params : OpenAI.Params).

Record Env : Type :=
  { fs_readFile : string -> string -> Result string;
    (* [JSON.parse] of the dataset file: a syntax error, or the parsed value *)
    JSON_parse : string -> Result Dataset;
    (* the embedding provider, as used while the store is built *)
    embedDocuments : list string -> Result unit;
    (* [vectorStore.similaritySearch(query, k)] *)
    similaritySearch : FaissStore -> string -> nat -> Result (list Document);
    (* [openai.chat.completions.create(params)] *)
    chat_completions_create : OpenAI.Params -> Result OpenAI.ChatCompletion;
    (* [String.prototype.trim] *)
    trim : string -> string }.

(** The module-level variables of the script and the trace of external
    calls issued so far (oldest first). *)
Record World : Type :=
  { cvDataset : option Dataset;                (* [undefined] until loaded *)
    vectorStore : option FaissStore;           (* [undefined] until built *)
    isInitialized : bool;
    calls : list Call }.

(** The state of the script when it is loaded. *)
Definition fresh : World :=
  {| cvDataset := None; vectorStore := None; isInitialized := false; calls := [] |}.

Definition set_cvDataset (parsed : Dataset) (w : World) : World :=
  {| cvDataset := Some parsed; vectorStore := vectorStore w;
     isInitialized := isInitialized w; calls := calls w |}.

Definition set_vectorStore (st : FaissStore) (w : World) : World :=
  {| cvDataset := cvDataset w; vectorStore := Some st;
     isInitialized := isInitialized w; calls := calls w |}.

Definition set_isInitialized (b : bool) (w : World) : World :=
  {| cvDataset := cvDataset w; vectorStore := vectorStore w;
     isInitialized := b; calls := calls w |}.

Definition record_call (c : Call) (w : World) : World :=
  {| cvDataset := cvDataset w; vectorStore := vectorStore w;
     isInitialized := isInitialized w; calls := (calls w ++ [c])%list |}.

(** [await] of an external call: the call is recorded, then its outcome is
    delivered. *)
Definition await {A} (c : Call) (outcome : Result A) : Js World A :=
  modify (record_call c) ;; settle outcome.

(** ** [initialize] *)

(** The search document of a record: [`${item.question} ${item.answer}`]. *)
Definition searchText (item : CVRecord.t) : string :=
  CVRecord.question item ++ " " ++ CVRecord.answer item.

(** [FaissStore.fromTexts(texts, metadatas, embeddings)]: the i-th text is
    stored with the i-th metadata object once the texts are embedded. *)
Definition fromTexts (env : Env) (texts : list string) (metadatas : list Metadata)
  : Js World FaissStore :=
  await (FromTexts texts metadatas) (embedDocuments env texts) ;;
  ret {| docstore := map (fun p => {| pageContent := fst p; metadata := snd p |})
                         (combine texts metadatas) |}.

Definition initialize (env : Env) : Js World unit :=
  try_catch
    (data <- await (ReadFile "cv_dataset.json" "utf8")
                   (fs_readFile env "cv_dataset.json" "utf8") ;;
     parsed <- settle (JSON_parse env data) ;;
     modify (set_cvDataset parsed) ;;
     dataset <- gets cvDataset ;;
     match dataset with
     | None => throw (TypeError "cvDataset is undefined")
     | Some (Malformed _) => throw (TypeError "cvDataset.map(...) throws")
     | Some (Records ds) =>
         store <- fromTexts env (map searchText ds)
                            (mapi (fun _ i => {| id := i |}) ds) ;;
         modify (set_vectorStore store) ;;
         modify (set_isInitialized true)
     end)
    (fun error => throw error).

(** ** [findRelevantExamples] *)

(** The callback of [results.map] applied to each result in turn, over a
    value that is not a proper array of items. *)
Fixpoint lookupEach (at_index : nat -> Result (option CVRecord.t))
                    (results : list Document)
  : Result (list (option CVRecord.t)) :=
  match results with
  | [] => Ok []
  | result :: rest =>
      match at_index (id (metadata result)) with
      | Throw e => Throw e
      | Ok found =>
          match lookupEach at_index rest with
          | Throw e => Throw e
          | Ok founds => Ok (found :: founds)
          end
      end
  end.

(** [results.map(result => cvDataset[result.metadata.id])]: an element of
    the result is [undefined] ([None]) when the id is not an index of the
    dataset; reading an index of an undefined dataset throws. *)
Definition lookupResults (dataset : option Dataset) (results : list Document)
  : Result (list (option CVRecord.t)) :=
  match results with
  | [] => Ok []
  | _ :: _ =>
      match dataset with
      | None => Throw (TypeError "cvDataset is undefined")
      | Some (Records ds) =>
          Ok (map (fun result => nth_error ds (id (metadata result))) results)
      | Some (Malformed at_index) => lookupEach at_index results
      end
  end.

Definition findRelevantExamples (env : Env) (question : string) (numExamples : option nat)
  : Js World (list (option CVRecord.t)) :=
  let numExamples := match numExamples with Some k => k | None => 3 end in
  ready <- gets isInitialized ;;
  store <- gets vectorStore ;;
  match ready, store with
  | true, Some vs =>
      try_catch
        (results <- await (SimilaritySearch question numExamples)
                          (similaritySearch env vs question numExamples) ;;
         dataset <- gets cvDataset ;;
         settle (lookupResults dataset results))
        (fun _ => ret [])
  | _, _ => ret []
  end.

(** ** [preparePrompt] *)

Definition preamble : string :=
  "Relevant information from Mathieu Vialatte's CV:" ++ LF ++ LF.

Definition fallbackNotice : string :=
  "No relevant examples could be found. Please answer to the best of your ability with general information about Mathieu Vialatte."
  ++ LF ++ LF.

(** [`Q: ${example.question}\nA: ${example.answer}\n\n`] *)
Definition exampleBlock (example : CVRecord.t) : string :=
  "Q: " ++ CVRecord.question example ++ LF ++
  "A: " ++ CVRecord.answer example ++ LF ++ LF.

(** [`Question: ${question}\nAnswer:`] *)
Definition questionLine (question : string) : string :=
  "Question: " ++ question ++ LF ++ "Answer:".

(** [relevantExamples.forEach(example => { prompt += ... })]: reading a
    property of an [undefined] element throws. *)
Fixpoint appendExamples (relevantExamples : list (option CVRecord.t)) (prompt : string)
  : Result string :=
  match relevantExamples with
  | [] => Ok prompt
  | None :: _ => Throw (TypeError "example is undefined")
  | Some example :: rest => appendExamples rest (prompt ++ exampleBlock example)
  end.

Definition preparePrompt (env : Env) (question : string) : Js World string :=
  let prompt := preamble in
  ready <- gets isInitialized ;;
  prompt <-
    (if ready : bool then
       relevantExamples <- findRelevantExamples env question None ;;
       settle (appendExamples relevantExamples prompt)
     else
       ret (prompt ++ fallbackNotice)) ;;
  ret (prompt ++ questionLine question).

(** ** The [POST /chat] route *)

(** The parsed request body [{ message, conversationHistory }];
    [conversationHistory] is [None] when the client left it out. *)
Module ChatBody.
Record t : Type := { message : string; conversationHistory : option (list Turn) }.
End ChatBody.

(** What [res.json] sends: the status and the body's fields. *)
Module Reply.
Record t : Type :=
  { status : nat; response : string; conversationHistory : option (list Turn) }.
End Reply.

(** The activation of the handler: the module-level state and the array
    object bound to [conversationHistory], which [push] mutates in place. *)
Record Frame : Type := { world : World; historyArray : list Turn }.

Definition inWorld {A} (m : Js World A) : Js Frame A :=
  fun f =>
    let (r, w') := m (world f) in
    (r, {| world := w'; historyArray := historyArray f |}).

(** [conversationHistory.push(turn)] *)
Definition push (turn : Turn) : Js Frame unit :=
  modify (fun f => {| world := world f;
                      historyArray := (historyArray f ++ [turn])%list |}).

Definition systemContent : string :=
  "You are a virtual assistant specialized in answering questions about Mathieu Vialatte's CV. " ++ LF ++
  "        Use only the information provided in the examples or in the question to answer. " ++ LF ++
  "        If information is not available, clearly state so. " ++ LF ++
  "        Focus on Mathieu's skills, experience, and achievements. " ++ LF ++
  "        Respond concisely and professionally.".

Definition systemTurn : Turn := {| role := "system"; content := systemContent |}.

Definition userTurn (text : string) : Turn := {| role := "user"; content := text |}.

Definition assistantTurn (text : string) : Turn := {| role := "assistant"; content := text |}.

(** The array literal [[ system, ...conversationHistory, user ]]. *)
Definition fullConversation (history : list Turn) (prompt : string) : list Turn :=
  (systemTurn :: history ++ [userTurn prompt])%list.

Definition completionParams (conversation : list Turn) : OpenAI.Params :=
  {| OpenAI.model := "gpt-4-turbo-preview";
     OpenAI.messages := conversation;
     OpenAI.max_tokens := 250;
     OpenAI.temperature := 0.5%Q;
     OpenAI.top_p := 0.9%Q;
     OpenAI.presence_penalty := 0.6%Q;
     OpenAI.frequency_penalty := 0.2%Q |}.

(** [response.choices[0].message.content.trim()] *)
Definition firstChoiceText (env : Env) (response : OpenAI.ChatCompletion) : Result string :=
  match OpenAI.choices response with
  | [] => Throw (TypeError "choices[0] is undefined")
  | choice :: _ =>
      match OpenAI.content (OpenAI.message choice) with
      | None => Throw (TypeError "content is null")
      | Some text => Ok (trim env text)
      end
  end.

Definition errorMessage : string :=
  "Sorry, an error occurred while processing your request.".

Definition chatRoute (env : Env) (message : string) : Js Frame Reply.t :=
  try_catch
    (prompt <- inWorld (preparePrompt env message) ;;
     history <- gets historyArray ;;
     let params := completionParams (fullConversation history prompt) in
     response <- inWorld (await (ChatCompletionsCreate params)
                                (chat_completions_create env params)) ;;
     aiResponse <- settle (firstChoiceText env response) ;;
     push (userTurn message) ;;
     push (assistantTurn aiResponse) ;;
     history' <- gets historyArray ;;
     ret {| Reply.status := 200;
            Reply.response := aiResponse;
            Reply.conversationHistory := Some history' |})
    (fun _ =>
       ret {| Reply.status := 500;
              Reply.response := errorMessage;
              Reply.conversationHistory := None |}).

(** [conversationHistory = []] in the destructuring of [req.body]. *)
Definition suppliedHistory (body : ChatBody.t) : list Turn :=
  match ChatBody.conversationHistory body with
  | Some history => history
  | None => []
  end.

(** One request to [POST /chat], started in module state [w]. *)
Definition postChat (env : Env) (body : ChatBody.t) (w : World) : Result Reply.t * Frame :=
  chatRoute env (ChatBody.message body)
            {| world := w; historyArray := suppliedHistory body |}.

(** The message sequences handed to the completion provider, in order. *)
Fixpoint submitted (cs : list Call) : list (list Turn) :=
  match cs with
  | [] => []
  | ChatCompletionsCreate params :: cs' => OpenAI.messages params :: submitted cs'
  | _ :: cs' => submitted cs'
  end.

(** ** The [GET /health] route *)

Record Health : Type := { healthStatus : string; initialized : bool }.

Definition healthRoute : Js World Health :=
  ready <- gets isInitialized ;;
  ret {| healthStatus := "ok"; initialized := ready |}.

(** ** Start-up and serving *)

Inductive Phase : Type :=
| Starting
| Listening
| Exited (code : nat).

Record Process : Type := { memory : World; phase : Phase }.

Definition loaded : Process := {| memory := fresh; phase := Starting |}.

(** [initialize().then(() => app.listen(...)).catch(() => process.exit(1))] *)
Definition startup (env : Env) : Process :=
  match initialize env fresh with
  | (Ok _, w) => {| memory := w; phase := Listening |}
  | (Throw _, w) => {| memory := w; phase := Exited 1 |}
  end.

Inductive Request : Type :=
| PostChat (body : ChatBody.t)
| GetHealth.

(** The module state left behind by one request. *)
Definition serve (env : Env) (request : Request) (w : World) : World :=
  match request with
  | PostChat body => world (snd (postChat env body w))
  | GetHealth => snd (healthRoute w)
  end.

(** The process runs its start-up once, in the environment [boot]; only a
    listening process takes requests, each in the environment of its time. *)
Inductive step (boot : Env) : Process -> Process -> Prop :=
| step_startup : step boot loaded (startup boot)
| step_request : forall env request w,
    step boot {| memory := w; phase := Listening |}
              {| memory := serve env request w; phase := Listening |}.

Inductive reachable (boot : Env) : Process -> Prop :=
| reachable_loaded : reachable boot loaded
| reachable_step : forall p q, reachable boot p -> step boot p q -> reachable boot q.

(** ** Coherence of the index with the corpus *)

(** The store that [initialize] builds from a dataset. *)
Definition indexOf (ds : list CVRecord.t) : FaissStore :=
  {| docstore := map (fun p => {| pageContent := fst p; metadata := snd p |})
                     (combine (map searchText ds)
                              (mapi (fun _ i => {| id := i |}) ds)) |}.

(** Whenever both the dataset and the store are defined, the dataset is an
    array of items and the store is the one built from it. *)
Definition coherent (w : World) : Prop :=
  forall parsed vs,
    cvDataset w = Some parsed -> vectorStore w = Some vs ->
    exists ds, parsed = Records ds /\ vs = indexOf ds.

(** The index answers a query with documents it holds. *)
Definition searchSound (env : Env) : Prop :=
  forall vs q k results,
    similaritySearch env vs q k = Ok results -> incl results (docstore vs).

(** Two module states that differ at most in the trace. *)
Definition sameGlobals (w w' : World) : Prop :=
  cvDataset w' = cvDataset w /\
  vectorStore w' = vectorStore w /\
  isInitialized w' = isInitialized w.

(** ** A concrete deployment, for running the model *)

Definition isWhite (c : ascii) : bool :=
  match nat_of_ascii c with
  | 9 | 10 | 11 | 12 | 13 | 32 => true
  | _ => false
  end.

Fixpoint trimStart (s : string) : string :=
  match s with
  | EmptyString => EmptyString
  | String c s' => if isWhite c then trimStart s' else s
  end.

Fixpoint trimEnd (s : string) : string :=
  match s with
  | EmptyString => EmptyString
  | String c s' =>
      match trimEnd s' with
      | EmptyString => if isWhite c then EmptyString else String c EmptyString
      | rest => String c rest
      end
  end.

(** [trim] on strings of ASCII characters. *)
Definition asciiTrim (s : string) : string := trimEnd (trimStart s).

Definition demoDataset : list CVRecord.t :=
  [ CVRecord.mk "What languages does Mathieu know?" "Python, JavaScript, Go.";
    CVRecord.mk "Where did Mathieu study?" "In Toulouse." ].

Definition demoCompletion : OpenAI.ChatCompletion :=
  {| OpenAI.choices :=
       [ {| OpenAI.message := {| OpenAI.content := Some "  Python, JavaScript and Go. " |} |} ] |}.

(** Every collaborator answers; the index returns its first [k] documents. *)
Definition demoEnv : Env :=
  {| fs_readFile := fun _ _ => Ok "[...]";
     JSON_parse := fun _ => Ok (Records demoDataset);
     embedDocuments := fun _ => Ok tt;
     similaritySearch := fun vs _ k => Ok (firstn k (docstore vs));
     chat_completions_create := fun _ => Ok demoCompletion;
     trim := asciiTrim |}.

(** As [demoEnv], with the similarity query failing. *)
Definition searchDownEnv : Env :=
  {| fs_readFile := fs_readFile demoEnv;
     JSON_parse := JSON_parse demoEnv;
     embedDocuments := embedDocuments demoEnv;
     similaritySearch := fun _ _ _ => Throw (ExternalError "embedding request failed");
     chat_completions_create := chat_completions_create demoEnv;
     trim := trim demoEnv |}.

(** As [demoEnv], with the completion provider failing. *)
Definition providerDownEnv : Env :=
  {| fs_readFile := fs_readFile demoEnv;
     JSON_parse := JSON_parse demoEnv;
     embedDocuments := embedDocuments demoEnv;
     similaritySearch := similaritySearch demoEnv;
     chat_completions_create := fun _ => Throw (ExternalError "503");
     trim := trim demoEnv |}.


(** As [demoEnv], with an unreadable dataset file. *)
Definition noDatasetEnv : Env :=
  {| fs_readFile := fun _ _ => Throw (ExternalError "ENOENT");
     JSON_parse := JSON_parse demoEnv;
     embedDocuments := embedDocuments demoEnv;
     similaritySearch := similaritySearch demoEnv;
     chat_completions_create := chat_completions_create demoEnv;
     trim := trim demoEnv |}.

(** The module state of the demo deployment once it listens. *)
Definition demoWorld : World := memory (startup demoEnv).

Definition demoHistory : list Turn :=
  [ userTurn "Hello"; assistantTurn "Hello, how can I help?" ].

Definition demoBody : ChatBody.t :=
  {| ChatBody.message := "What programming languages?";
     ChatBody.conversationHistory := Some demoHistory |}.

(** ** Vocabulary of the statements *)

(** The default of [numExamples = 3]. *)
Definition countOr3 (numExamples : option nat) : nat :=
  match numExamples with Some k => k | None => 3 end.

(** The context blocks of a list of records, in order. *)
Fixpoint blocksOf (examples : list CVRecord.t) : string :=
  match examples with
  | [] => ""
  | example :: rest => exampleBlock example ++ blocksOf rest
  end.

(** The reply of the route's [catch] branch. *)
Definition failureReply : Reply.t :=
  {| Reply.status := 500;
     Reply.response := errorMessage;
     Reply.conversationHistory := None |}.

(** What follows the question label in the prompt: the user's own text
    and the answer label. *)
Definition questionTail (question : string) : string :=
  question ++ LF ++ "Answer:".

(** The reading under which a failed similarity query would show up in the
    prompt as the fallback notice. *)
Definition queryErrorSurfacesFallback : Prop :=
  forall env question w vs e,
    isInitialized w = true ->
    vectorStore w = Some vs ->
    similaritySearch env vs question 3 = Throw e ->
    exists prompt w',
      preparePrompt env question w = (Ok prompt, w') /\
      includes prompt fallbackNotice = true.

(** ** Further deployments and trace vocabulary *)

(** As [demoEnv], with the index answering with a document it does not
    hold, whose id is no index of the dataset. *)
Definition strayEnv : Env :=
  {| fs_readFile := fs_readFile demoEnv;
     JSON_parse := JSON_parse demoEnv;
     embedDocuments := embedDocuments demoEnv;
     similaritySearch :=
       fun _ _ _ => Ok [ {| pageContent := "stale"; metadata := {| id := 7 |} |} ];
     chat_completions_create := chat_completions_create demoEnv;
     trim := trim demoEnv |}.

(** As [demoEnv], with the completion provider returning no choice. *)
Definition noChoiceEnv : Env :=
  {| fs_readFile := fs_readFile demoEnv;
     JSON_parse := JSON_parse demoEnv;
     embedDocuments := embedDocuments demoEnv;
     similaritySearch := similaritySearch demoEnv;
     chat_completions_create := fun _ => Ok {| OpenAI.choices := [] |};
     trim := trim demoEnv |}.



(** The calls that load the corpus and build the index. *)
Definition isLoadCall (c : Call) : bool :=
  match c with
  | ReadFile _ _ | FromTexts _ _ => true
  | _ => false
  end.

Definition loadCalls (cs : list Call) : list Call := filter isLoadCall cs.

(** The records a list of results points at, where the id is an index. *)
Definition deref (ds : list CVRecord.t) (results : list Document)
  : list (option CVRecord.t) :=
  map (fun result => nth_error ds (id (metadata result))) results.

(** A follow-up request: the client sends back the history it received. *)
Definition followUp (reply : Reply.t) (message : string) : ChatBody.t :=
  {| ChatBody.message := message;
     ChatBody.conversationHistory := Reply.conversationHistory reply |}.

(** The demo deployment after it has served one chat request. *)
Definition demoServing : Process :=
  {| memory := serve demoEnv (PostChat demoBody) demoWorld; phase := Listening |}.

(** The replies of the demo deployment to [demoBody] and to a follow-up. *)
Definition demoReply : Reply.t :=
  {| Reply.status := 200;
     Reply.response := "Python, JavaScript and Go.";
     Reply.conversationHistory :=
       Some (demoHistory ++ [ userTurn "What programming languages?";
                              assistantTurn "Python, JavaScript and Go." ])%list |}.

Definition demoReply2 : Reply.t :=
  {| Reply.status := 200;
     Reply.response := "Python, JavaScript and Go.";
     Reply.conversationHistory :=
       Some (demoHistory ++ [ userTurn "What programming languages?";
                              assistantTurn "Python, JavaScript and Go.";
                              userTurn "And where did he study?";
                              assistantTurn "Python, JavaScript and Go." ])%list |}.

(** * Properties *)

(** ** Strings *)

Lemma append_assoc (a b c : string) : (a ++ b) ++ c = a ++ (b ++ c).
Proof.
  induction a as [|ch a IH]; simpl; [reflexivity | now rewrite IH].
Qed.

Lemma append_empty (a : string) : a ++ "" = a.
Proof.
  induction a as [|ch a IH]; simpl; [reflexivity | now rewrite IH].
Qed.





Lemma append_nonempty (a b : string) : a <> "" -> a ++ b <> "".
Proof.
  destruct a; [congruence | discriminate].
Qed.

(** ** The index built from a corpus *)

Section Index.

Variable ds : list CVRecord.t.

(** A pair of the zipped texts and metadata names the record at its id. *)
Lemma zipped_entry (l : list CVRecord.t) (i : nat) (text : string) (m : Metadata) :
  In (text, m) (combine (map searchText l) (mapi_from i (fun _ j => {| id := j |}) l)) ->
  i <= id m /\
  exists item, nth_error l (id m - i) = Some item /\ text = searchText item.
Proof.
  revert i; induction l as [|x l IH]; intros i; simpl; [tauto|].
  intros [Heq | Hin].
  - inversion Heq; subst; simpl. split; [lia|].
    exists x. now rewrite Nat.sub_diag.
  - destruct (IH _ Hin) as [Hle [item [Hnth Htext]]].
    split; [lia|]. exists item. split; [|exact Htext].
    replace (id m - i) with (S (id m - S i)) by lia. exact Hnth.
Qed.

Lemma indexOf_entry (doc : Document) :
  In doc (docstore (indexOf ds)) ->
  exists item,
    nth_error ds (id (metadata doc)) = Some item /\
    pageContent doc = searchText item.
Proof.
  unfold indexOf, mapi; simpl. rewrite in_map_iff.
  intros [[text m] [Hdoc Hin]]. subst doc; simpl.
  destruct (zipped_entry _ _ _ _ Hin) as [_ [item [Hnth Htext]]].
  rewrite Nat.sub_0_r in Hnth. now exists item.
Qed.

Lemma zipped_ids (l : list CVRecord.t) (i : nat) :
  map (fun p : string * Metadata => id (snd p))
      (combine (map searchText l) (mapi_from i (fun _ j => {| id := j |}) l))
  = seq i (List.length l).
Proof.
  revert i; induction l as [|x l IH]; intros i; simpl; [|rewrite IH]; reflexivity.
Qed.

(** The stored ids are 0, 1, ..., in load order. *)
Lemma indexOf_ids :
  map (fun doc => id (metadata doc)) (docstore (indexOf ds)) = seq 0 (List.length ds).
Proof.
  unfold indexOf, mapi; simpl. rewrite map_map; simpl. apply zipped_ids.
Qed.

Lemma indexOf_texts :
  map pageContent (docstore (indexOf ds)) = map searchText ds.
Proof.
  unfold indexOf, mapi; simpl. rewrite map_map; simpl.
  generalize 0. induction ds as [|x l IH]; intros i; simpl; [|rewrite IH]; reflexivity.
Qed.

End Index.

(** ** Runs of the retrieval and of the prompt composer *)

Lemma findRelevantExamples_run env question numExamples w :
  findRelevantExamples env question numExamples w =
  match isInitialized w, vectorStore w with
  | true, Some vs =>
      let k := countOr3 numExamples in
      let w' := record_call (SimilaritySearch question k) w in
      match similaritySearch env vs question k with
      | Ok results =>
          match lookupResults (cvDataset w) results with
          | Ok found => (Ok found, w')
          | Throw _ => (Ok [], w')
          end
      | Throw _ => (Ok [], w')
      end
  | _, _ => (Ok [], w)
  end.
Proof.
  unfold findRelevantExamples, countOr3, try_catch, await, gets, modify, settle; simpl.
  unfold js_bind, js_ret; simpl.
  destruct (isInitialized w); [|reflexivity].
  destruct (vectorStore w) as [vs|]; [|reflexivity].
  destruct (similaritySearch env vs question _) as [results|e]; [|reflexivity].
  simpl. destruct (lookupResults (cvDataset w) results); reflexivity.
Qed.

Lemma preparePrompt_run env question w :
  preparePrompt env question w =
  if isInitialized w then
    match findRelevantExamples env question None w with
    | (Ok relevantExamples, w') =>
        match appendExamples relevantExamples preamble with
        | Ok prompt => (Ok (prompt ++ questionLine question), w')
        | Throw e => (Throw e, w')
        end
    | (Throw e, w') => (Throw e, w')
    end
  else (Ok ((preamble ++ fallbackNotice) ++ questionLine question), w).
Proof.
  unfold preparePrompt, gets, settle; simpl. unfold js_bind, js_ret; simpl.
  destruct (isInitialized w); [|reflexivity].
  destruct (findRelevantExamples env question None w) as [[found|e] w']; [|reflexivity].
  destruct (appendExamples found preamble); reflexivity.
Qed.

Lemma appendExamples_all (examples : list CVRecord.t) (prompt : string) :
  appendExamples (map Some examples) prompt = Ok (prompt ++ blocksOf examples).
Proof.
  revert prompt; induction examples as [|x l IH]; intros prompt; simpl.
  - now rewrite append_empty.
  - now rewrite IH, append_assoc.
Qed.

(** With every looked-up element defined the loop cannot throw. *)
Lemma appendExamples_total (found : list (option CVRecord.t)) (prompt : string) :
  Forall (fun o => o <> None) found ->
  exists examples,
    found = map Some examples /\
    appendExamples found prompt = Ok (prompt ++ blocksOf examples).
Proof.
  intros H. assert (exists examples, found = map Some examples) as [examples ->].
  { induction H as [|o l Ho _ [examples ->]]; [now exists []|].
    destruct o as [x|]; [|congruence]. now exists (x :: examples). }
  exists examples. split; [reflexivity | apply appendExamples_all].
Qed.

(** ** Runs of [initialize] and of the chat route *)

Lemma initialize_run env w :
  initialize env w =
  let w1 := record_call (ReadFile "cv_dataset.json" "utf8") w in
  match fs_readFile env "cv_dataset.json" "utf8" with
  | Throw e => (Throw e, w1)
  | Ok data =>
      match JSON_parse env data with
      | Throw e => (Throw e, w1)
      | Ok (Malformed at_index) =>
          (Throw (TypeError "cvDataset.map(...) throws"),
           set_cvDataset (Malformed at_index) w1)
      | Ok (Records ds) =>
          let texts := map searchText ds in
          let metadatas := mapi (fun _ i => {| id := i |}) ds in
          let w2 :=
            record_call (FromTexts texts metadatas) (set_cvDataset (Records ds) w1) in
          match embedDocuments env texts with
          | Throw e => (Throw e, w2)
          | Ok _ => (Ok tt, set_isInitialized true (set_vectorStore (indexOf ds) w2))
          end
      end
  end.
Proof.
  unfold initialize, fromTexts, try_catch, await, gets, modify, settle, throw; simpl.
  unfold js_bind, js_ret; simpl.
  destruct (fs_readFile env _ _) as [data|e]; [|reflexivity].
  destruct (JSON_parse env data) as [[ds|at_index]|e]; [|reflexivity|reflexivity]. simpl.
  destruct (embedDocuments env _) as [u|e]; reflexivity.
Qed.

Lemma postChat_run env body w :
  postChat env body w =
  let message := ChatBody.message body in
  let history := suppliedHistory body in
  match preparePrompt env message w with
  | (Throw _, w1) => (Ok failureReply, {| world := w1; historyArray := history |})
  | (Ok prompt, w1) =>
      let params := completionParams (fullConversation history prompt) in
      let w2 := record_call (ChatCompletionsCreate params) w1 in
      match chat_completions_create env params with
      | Throw _ => (Ok failureReply, {| world := w2; historyArray := history |})
      | Ok completion =>
          match firstChoiceText env completion with
          | Throw _ => (Ok failureReply, {| world := w2; historyArray := history |})
          | Ok aiResponse =>
              let history' :=
                ((history ++ [userTurn message]) ++ [assistantTurn aiResponse])%list in
              (Ok {| Reply.status := 200;
                     Reply.response := aiResponse;
                     Reply.conversationHistory := Some history' |},
               {| world := w2; historyArray := history' |})
          end
      end
  end.
Proof.
  unfold postChat, chatRoute, try_catch, inWorld, await, push, gets, modify, settle; simpl.
  unfold js_bind, js_ret; simpl.
  destruct (preparePrompt env _ w) as [[prompt|e] w1]; [|reflexivity]. simpl.
  destruct (chat_completions_create env _) as [completion|e]; [|reflexivity]. simpl.
  destruct (firstChoiceText env completion) as [aiResponse|e]; reflexivity.
Qed.

(** ** Retrieval *)

Lemma findRelevantExamples_never_throws env question numExamples w :
  exists found, fst (findRelevantExamples env question numExamples w) = Ok found.
Proof.
  rewrite findRelevantExamples_run.
  destruct (isInitialized w); [|now exists []].
  destruct (vectorStore w) as [vs|]; [|now exists []]. simpl.
  destruct (similaritySearch env vs question _) as [results|e]; [|now exists []].
  destruct (lookupResults (cvDataset w) results) as [found|e];
    [now exists found | now exists []].
Qed.

Lemma findRelevantExamples_globals env question numExamples w :
  sameGlobals w (snd (findRelevantExamples env question numExamples w)).
Proof.
  rewrite findRelevantExamples_run. unfold sameGlobals.
  destruct (isInitialized w) eqn:Hr; destruct (vectorStore w) as [vs|] eqn:Hv;
    simpl; rewrite ?Hr, ?Hv; auto.
  destruct (similaritySearch env vs question _) as [results|e];
    [destruct (lookupResults (cvDataset w) results)|];
    simpl; rewrite ?Hr, ?Hv; auto.
Qed.

(** C4: the similarity query returns the empty sequence, and never an
    error, when the readiness flag is false, when there is no vector store,
    when the search itself throws, or when mapping the results back to the
    dataset throws. *)
Theorem findRelevantExamples_failure_is_empty env question numExamples w :
  (isInitialized w = false \/
   vectorStore w = None \/
   (exists vs e, vectorStore w = Some vs /\
      similaritySearch env vs question (countOr3 numExamples) = Throw e) \/
   (exists vs results e, vectorStore w = Some vs /\
      similaritySearch env vs question (countOr3 numExamples) = Ok results /\
      lookupResults (cvDataset w) results = Throw e)) ->
  fst (findRelevantExamples env question numExamples w) = Ok [].
Proof.
  intros H. rewrite findRelevantExamples_run.
  destruct (isInitialized w); [|reflexivity].
  destruct (vectorStore w) as [vs|]; [|reflexivity]. simpl.
  destruct H as [H | [H | [[vs' [e [Hv Hs]]] | [vs' [results [e [Hv [Hs Hl]]]]]]]];
    try discriminate; inversion Hv; subst vs'.
  - now rewrite Hs.
  - now rewrite Hs, Hl.
Qed.

Lemma findRelevantExamples_failure_is_empty_witness :
  fst (findRelevantExamples searchDownEnv "Hi" (Some 2) demoWorld) = Ok [] /\
  fst (findRelevantExamples demoEnv "Hi" None fresh) = Ok [].
Proof.
  split.
  - apply findRelevantExamples_failure_is_empty. right; right; left.
    exists (indexOf demoDataset), (ExternalError "embedding request failed").
    split; reflexivity.
  - apply findRelevantExamples_failure_is_empty. left. reflexivity.
Defined.

Lemma submitted_app (cs cs' : list Call) :
  submitted (cs ++ cs') = (submitted cs ++ submitted cs')%list.
Proof.
  induction cs as [|c cs IH]; simpl; [reflexivity|].
  destruct c; simpl; now rewrite IH.
Qed.

(** The retrieval step submits nothing to the completion provider. *)
Lemma findRelevantExamples_submits_nothing env question numExamples w :
  submitted (calls (snd (findRelevantExamples env question numExamples w)))
  = submitted (calls w).
Proof.
  rewrite findRelevantExamples_run.
  destruct (isInitialized w); [|reflexivity].
  destruct (vectorStore w) as [vs|]; [|reflexivity]. simpl.
  destruct (similaritySearch env vs question _) as [results|e];
    [destruct (lookupResults (cvDataset w) results)|];
    simpl; rewrite submitted_app; simpl; apply app_nil_r.
Qed.

Lemma preparePrompt_submits_nothing env question w :
  submitted (calls (snd (preparePrompt env question w))) = submitted (calls w).
Proof.
  rewrite preparePrompt_run.
  destruct (isInitialized w); [|reflexivity].
  pose proof (findRelevantExamples_submits_nothing env question None w) as H.
  destruct (findRelevantExamples env question None w) as [[found|e] w']; simpl in *;
    [destruct (appendExamples found preamble)|]; exact H.
Qed.

Lemma preparePrompt_globals env question w :
  sameGlobals w (snd (preparePrompt env question w)).
Proof.
  rewrite preparePrompt_run.
  destruct (isInitialized w) eqn:Hr; [|unfold sameGlobals; simpl; auto].
  pose proof (findRelevantExamples_globals env question None w) as H.
  destruct (findRelevantExamples env question None w) as [[found|e] w']; simpl in *;
    [destruct (appendExamples found preamble)|]; exact H.
Qed.

(** ** The prompt composer *)



(** With the flag true and nothing retrieved, the loop adds nothing. *)
Lemma preparePrompt_on_empty env question w w' :
  isInitialized w = true ->
  findRelevantExamples env question None w = (Ok [], w') ->
  preparePrompt env question w = (Ok (preamble ++ questionLine question), w').
Proof.
  intros Hr Hf. rewrite preparePrompt_run, Hr, Hf. reflexivity.
Qed.



(** ** Results of a coherent index dereference into the corpus *)

Lemma coherent_index w ds vs :
  coherent w ->
  cvDataset w = Some (Records ds) -> vectorStore w = Some vs -> vs = indexOf ds.
Proof.
  intros Hc Hd Hv. destruct (Hc _ _ Hd Hv) as [ds' [Hr Hi]].
  inversion Hr; subst ds'. exact Hi.
Qed.

Lemma lookup_defined env w ds vs question k results :
  coherent w -> searchSound env ->
  cvDataset w = Some (Records ds) -> vectorStore w = Some vs ->
  similaritySearch env vs question k = Ok results ->
  Forall (fun o : option CVRecord.t => o <> None)
         (map (fun result => nth_error ds (id (metadata result))) results).
Proof.
  intros Hc Hs Hd Hv Hq. rewrite (coherent_index w ds vs Hc Hd Hv) in Hq.
  apply Forall_forall. intros o Ho. apply in_map_iff in Ho.
  destruct Ho as [doc [Hdoc Hin]]. subst o.
  destruct (indexOf_entry ds doc (Hs _ _ _ _ Hq doc Hin)) as [item [Hnth _]].
  congruence.
Qed.

(** Under coherence the retrieval yields records only, never [undefined]. *)
Lemma findRelevantExamples_records env question numExamples w :
  coherent w -> searchSound env ->
  exists examples,
    fst (findRelevantExamples env question numExamples w) = Ok (map Some examples).
Proof.
  intros Hc Hs. rewrite findRelevantExamples_run.
  destruct (isInitialized w); [|now exists []].
  destruct (vectorStore w) as [vs|] eqn:Hv; [|now exists []]. simpl.
  destruct (similaritySearch env vs question _) as [results|e] eqn:Hq; [|now exists []].
  destruct results as [|r results]; [now exists []|].
  unfold lookupResults.
  destruct (cvDataset w) as [parsed|] eqn:Hd; [|now exists []].
  destruct (Hc _ _ Hd Hv) as [ds [Hp _]]. subst parsed.
  pose proof (lookup_defined env w ds vs question _ _ Hc Hs Hd Hv Hq) as Hall.
  destruct (appendExamples_total _ "" Hall) as [examples [Heq _]].
  exists examples. simpl. now rewrite <- Heq.
Qed.

(** The shape of every prompt composed over a coherent index. *)
Lemma preparePrompt_shape env question w :
  coherent w -> searchSound env ->
  exists context,
    fst (preparePrompt env question w)
    = Ok (preamble ++ context ++ questionLine question).
Proof.
  intros Hc Hs. rewrite preparePrompt_run.
  destruct (isInitialized w).
  - destruct (findRelevantExamples_records env question None w Hc Hs) as [examples He].
    destruct (findRelevantExamples env question None w) as [[found|e] w'];
      simpl in He; [|discriminate].
    inversion He; subst found. rewrite appendExamples_all.
    exists (blocksOf examples). now rewrite append_assoc.
  - exists fallbackNotice. now rewrite append_assoc.
Qed.

(** C5: over every coherent index state and every sound query result the
    composer returns a prompt; the prompt is not empty, begins with the
    sentence "Relevant information from Mathieu Vialatte's CV:" and its two
    line feeds, and ends with "Question: ", the question, a line feed and
    "Answer:". *)
Theorem preparePrompt_frame env question w :
  coherent w -> searchSound env ->
  exists prompt,
    fst (preparePrompt env question w) = Ok prompt /\
    prompt <> "" /\
    (exists rest,
       prompt = "Relevant information from Mathieu Vialatte's CV:"
                  ++ String "010" (String "010" rest)) /\
    (exists front,
       prompt = front ++ "Question: " ++ question ++ String "010" "Answer:").
Proof.
  intros Hc Hs.
  destruct (preparePrompt_shape env question w Hc Hs) as [context Hp].
  exists (preamble ++ context ++ questionLine question).
  split; [exact Hp|]. split; [|split].
  - apply append_nonempty. discriminate.
  - exists (context ++ questionLine question). reflexivity.
  - exists (preamble ++ context). rewrite append_assoc. reflexivity.
Qed.

Lemma demoWorld_coherent : coherent demoWorld.
Proof.
  intros parsed vs Hd Hv. inversion Hd; subst parsed. inversion Hv; subst vs.
  exists demoDataset. split; reflexivity.
Qed.

Lemma demoEnv_searchSound : searchSound demoEnv.
Proof.
  intros vs q k results H. inversion H; subst results.
  intros doc Hin. rewrite <- (firstn_skipn k (docstore vs)).
  apply in_or_app. now left.
Qed.

Lemma searchDownEnv_searchSound : searchSound searchDownEnv.
Proof.
  intros vs q k results H. discriminate H.
Qed.

Lemma preparePrompt_frame_witness :
  exists prompt,
    fst (preparePrompt demoEnv "What programming languages?" demoWorld) = Ok prompt /\
    prompt <> "" /\
    (exists rest,
       prompt = "Relevant information from Mathieu Vialatte's CV:"
                  ++ String "010" (String "010" rest)) /\
    (exists front,
       prompt = front ++ "Question: " ++ "What programming languages?"
                      ++ String "010" "Answer:").
Proof.
  apply preparePrompt_frame; [exact demoWorld_coherent | exact demoEnv_searchSound].
Defined.

(** ** A failed similarity query *)

(** C3, as stated, fails: in the demo deployment with the similarity query
    failing, the prompt for "Hi" does not contain the fallback notice. *)
Lemma queryErrorSurfacesFallback_fails : ~ queryErrorSurfacesFallback.
Proof.
  intros claim.
  destruct (claim searchDownEnv "Hi" demoWorld (indexOf demoDataset)
                  (ExternalError "embedding request failed")
                  eq_refl eq_refl eq_refl) as [prompt [w' [Hrun Hinc]]].
  assert (Hp : prompt = preamble ++ questionLine "Hi")
    by (vm_compute in Hrun; inversion Hrun; reflexivity).
  subst prompt. vm_compute in Hinc. discriminate Hinc.
Qed.

(** C3 (amended): a failed similarity query is recovered inside the
    retrieval, which yields the empty sequence; the composed prompt is the
    preamble followed by the question line, without the fallback notice
    (unless the user's question carries it), and the route goes on to
    submit that prompt to the completion provider. *)
Theorem query_error_recovered env body w vs e :
  isInitialized w = true ->
  vectorStore w = Some vs ->
  similaritySearch env vs (ChatBody.message body) 3 = Throw e ->
  let question := ChatBody.message body in
  let prompt := preamble ++ questionLine question in
  fst (findRelevantExamples env question None w) = Ok [] /\
  fst (preparePrompt env question w) = Ok prompt /\
  includes prompt fallbackNotice = includes (questionTail question) fallbackNotice /\
  submitted (calls (world (snd (postChat env body w))))
  = (submitted (calls w) ++ [fullConversation (suppliedHistory body) prompt])%list.
Proof.
  intros Hr Hv Hq. cbv zeta.
  remember (ChatBody.message body) as question eqn:Eq.
  assert (Hfind : findRelevantExamples env question None w
                  = (Ok [], record_call (SimilaritySearch question 3) w)).
  { rewrite findRelevantExamples_run, Hr, Hv. simpl. now rewrite Hq. }
  assert (Hprep : preparePrompt env question w
                  = (Ok (preamble ++ questionLine question),
                     record_call (SimilaritySearch question 3) w)).
  { now apply preparePrompt_on_empty. }
  split; [now rewrite Hfind|]. split; [now rewrite Hprep|]. split; [reflexivity|].
  rewrite postChat_run. cbv zeta. rewrite <- Eq, Hprep.
  destruct (chat_completions_create env _) as [completion|err];
    [destruct (firstChoiceText env completion)|];
    cbn [snd world calls record_call];
    rewrite !submitted_app; simpl; now rewrite app_nil_r.
Qed.

Lemma query_error_recovered_witness :
  fst (findRelevantExamples searchDownEnv "Hi" None demoWorld) = Ok [] /\
  fst (preparePrompt searchDownEnv "Hi" demoWorld) = Ok (preamble ++ questionLine "Hi") /\
  includes (preamble ++ questionLine "Hi") fallbackNotice
    = includes (questionTail "Hi") fallbackNotice /\
  submitted (calls (world (snd (postChat searchDownEnv
               {| ChatBody.message := "Hi"; ChatBody.conversationHistory := None |}
               demoWorld))))
  = (submitted (calls demoWorld)
       ++ [fullConversation [] (preamble ++ questionLine "Hi")])%list.
Proof.
  apply (query_error_recovered searchDownEnv
           {| ChatBody.message := "Hi"; ChatBody.conversationHistory := None |}
           demoWorld (indexOf demoDataset) (ExternalError "embedding request failed"));
    reflexivity.
Defined.

(** ** The chat route *)

Lemma length_append (a b : string) :
  String.length (a ++ b) = String.length a + String.length b.
Proof.
  induction a as [|ch a IH]; simpl; [reflexivity | now rewrite IH].
Qed.

(** A composed prompt is never the raw question. *)
Lemma composed_differs (context question : string) :
  preamble ++ context ++ questionLine question <> question.
Proof.
  intros H. apply (f_equal String.length) in H.
  unfold questionLine in H. rewrite !length_append in H. simpl in H. lia.
Qed.

(** The route always answers: its [catch] turns every exception into the
    failure reply. *)
Lemma postChat_replies env body w :
  exists reply f,
    postChat env body w = (Ok reply, f) /\
    (Reply.status reply = 200 \/ reply = failureReply).
Proof.
  rewrite postChat_run. cbv zeta.
  destruct (preparePrompt env _ w) as [[prompt|e] w1]; [|eauto].
  destruct (chat_completions_create env _) as [completion|e]; [|eauto].
  destruct (firstChoiceText env completion) as [aiResponse|e]; eauto.
Qed.

(** Whenever the route fails, the array it was given is left as it was. *)
Lemma postChat_failure_keeps_history env body w f :
  postChat env body w = (Ok failureReply, f) ->
  historyArray f = suppliedHistory body.
Proof.
  rewrite postChat_run. cbv zeta.
  destruct (preparePrompt env _ w) as [[prompt|e] w1];
    [|intros H; inversion H; reflexivity].
  destruct (chat_completions_create env _) as [completion|e];
    [|intros H; inversion H; reflexivity].
  destruct (firstChoiceText env completion) as [aiResponse|e];
    intros H; inversion H; reflexivity.
Qed.



(** C2: when the completion provider throws, the route answers with
    status 500 and the fixed message, without a history, and the array it
    was given holds exactly the supplied turns. *)
Theorem postChat_provider_failure env body w prompt w1 e :
  preparePrompt env (ChatBody.message body) w = (Ok prompt, w1) ->
  chat_completions_create env
    (completionParams (fullConversation (suppliedHistory body) prompt)) = Throw e ->
  exists f,
    postChat env body w
    = (Ok {| Reply.status := 500;
             Reply.response := "Sorry, an error occurred while processing your request.";
             Reply.conversationHistory := None |}, f) /\
    historyArray f = suppliedHistory body.
Proof.
  intros Hp Hc. rewrite postChat_run. cbv zeta. rewrite Hp, Hc.
  eexists. split; reflexivity.
Qed.

Lemma postChat_provider_failure_witness :
  exists f,
    postChat providerDownEnv demoBody demoWorld
    = (Ok {| Reply.status := 500;
             Reply.response := "Sorry, an error occurred while processing your request.";
             Reply.conversationHistory := None |}, f) /\
    historyArray f = demoHistory.
Proof.
  eapply (postChat_provider_failure providerDownEnv demoBody demoWorld);
    [vm_compute; reflexivity | reflexivity].
Defined.



(** ** Start-up *)

Lemma sameGlobals_refl w : sameGlobals w w.
Proof. unfold sameGlobals; auto. Qed.

Lemma sameGlobals_trans w1 w2 w3 :
  sameGlobals w1 w2 -> sameGlobals w2 w3 -> sameGlobals w1 w3.
Proof.
  unfold sameGlobals. intros [A [B C]] [D [E F]].
  repeat split; congruence.
Qed.

Lemma sameGlobals_record_call c w : sameGlobals w (record_call c w).
Proof. unfold sameGlobals; auto. Qed.

(** What a successful [initialize] leaves behind, and what made it succeed. *)
Lemma initialize_ok env w0 w u :
  initialize env w0 = (Ok u, w) ->
  exists data ds,
    fs_readFile env "cv_dataset.json" "utf8" = Ok data /\
    JSON_parse env data = Ok (Records ds) /\
    embedDocuments env (map searchText ds) = Ok tt /\
    cvDataset w = Some (Records ds) /\
    vectorStore w = Some (indexOf ds) /\
    isInitialized w = true.
Proof.
  rewrite initialize_run. cbv zeta.
  destruct (fs_readFile env _ _) as [data|e] eqn:Hread; [|discriminate].
  destruct (JSON_parse env data) as [[ds|at_index]|e] eqn:Hparse;
    [|discriminate|discriminate].
  destruct (embedDocuments env _) as [[]|e] eqn:Hembed; [|discriminate].
  intros H; inversion H; subst. exists data, ds. simpl. auto 10.
Qed.

(** A failed [initialize] leaves the readiness flag as it found it. *)
Lemma initialize_throw env w0 w e :
  initialize env w0 = (Throw e, w) ->
  isInitialized w = isInitialized w0 /\ vectorStore w = vectorStore w0.
Proof.
  rewrite initialize_run. cbv zeta.
  destruct (fs_readFile env _ _) as [data|e1];
    [|intros H; inversion H; subst; auto].
  destruct (JSON_parse env data) as [[ds|at_index]|e1];
    [|intros H; inversion H; subst; auto|intros H; inversion H; subst; auto].
  destruct (embedDocuments env _) as [[]|e1];
    intros H; inversion H; subst; auto.
Qed.

Lemma postChat_globals env body w :
  sameGlobals w (world (snd (postChat env body w))).
Proof.
  pose proof (preparePrompt_globals env (ChatBody.message body) w) as Hg.
  rewrite postChat_run. cbv zeta.
  destruct (preparePrompt env _ w) as [[prompt|e] w1]; simpl in Hg; [|exact Hg].
  destruct (chat_completions_create env _) as [completion|err];
    [destruct (firstChoiceText env completion)|];
    simpl; (eapply sameGlobals_trans; [exact Hg | apply sameGlobals_record_call]).
Qed.

(** Serving a request changes no module-level variable. *)
Lemma serve_globals env request w : sameGlobals w (serve env request w).
Proof.
  destruct request as [body|]; simpl;
    [apply postChat_globals | apply sameGlobals_refl].
Qed.

(** The states a process started in [boot] can be in. *)
Lemma reachable_inv boot p :
  reachable boot p ->
  match phase p with
  | Starting => p = loaded
  | Listening =>
      exists w0, initialize boot fresh = (Ok tt, w0) /\ sameGlobals w0 (memory p)
  | Exited code =>
      code = 1 /\
      exists e w0, initialize boot fresh = (Throw e, w0) /\ p = startup boot
  end.
Proof.
  induction 1 as [|p q Hreach IH Hstep]; [reflexivity|].
  destruct Hstep as [|env request w].
  - unfold startup.
    destruct (initialize boot fresh) as [[[]|e] w0] eqn:Hi; simpl.
    + exists w0. split; [reflexivity | apply sameGlobals_refl].
    + split; [reflexivity|]. exists e, w0. split; reflexivity.
  - simpl in *. destruct IH as [w0 [Hi Hg]].
    exists w0. split; [exact Hi|].
    eapply sameGlobals_trans; [exact Hg | apply serve_globals].
Qed.

(** C9: a process listens only after [initialize] has succeeded, that is
    after the dataset was read and parsed and the store was built from it;
    in every listening state the readiness flag is true and corpus and
    store are the ones built at start-up.  If [initialize] throws, the
    process exits with code 1 without ever listening, and an exited process
    takes no further step. *)
Theorem listening_only_when_ready boot p :
  reachable boot p ->
  (phase p = Listening ->
     isInitialized (memory p) = true /\
     exists data ds,
       fs_readFile boot "cv_dataset.json" "utf8" = Ok data /\
       JSON_parse boot data = Ok (Records ds) /\
       embedDocuments boot (map searchText ds) = Ok tt /\
       cvDataset (memory p) = Some (Records ds) /\
       vectorStore (memory p) = Some (indexOf ds)) /\
  (forall e, fst (initialize boot fresh) = Throw e ->
     phase (startup boot) = Exited 1 /\
     phase p <> Listening /\
     (p = loaded \/ p = startup boot)) /\
  (forall code, phase p = Exited code -> forall q, ~ step boot p q).
Proof.
  intros Hreach. pose proof (reachable_inv boot p Hreach) as Hinv.
  split; [|split].
  - intros Hl. rewrite Hl in Hinv. destruct Hinv as [w0 [Hi [Hd [Hv Hr]]]].
    destruct (initialize_ok boot fresh w0 tt Hi)
      as [data [ds [Hread [Hparse [Hembed [Hds [Hvs Hrd]]]]]]].
    split; [congruence|].
    exists data, ds. repeat split; congruence.
  - intros e He.
    assert (Hs : phase (startup boot) = Exited 1).
    { unfold startup. destruct (initialize boot fresh) as [[u|e'] w0];
        [discriminate | reflexivity]. }
    split; [exact Hs|].
    destruct (phase p) eqn:Hp.
    + split; [discriminate | now left].
    + destruct Hinv as [w0 [Hi _]]. rewrite Hi in He. discriminate.
    + destruct Hinv as [_ [e' [w0 [_ Heq]]]]. split; [discriminate | now right].
  - intros code Hp q Hstep. destruct Hstep; simpl in Hp; discriminate.
Qed.

Lemma listening_only_when_ready_witness :
  phase (startup demoEnv) = Listening /\
  isInitialized (memory (startup demoEnv)) = true /\
  phase (startup noDatasetEnv) = Exited 1.
Proof.
  assert (Hdemo : reachable demoEnv (startup demoEnv))
    by (eapply reachable_step; [apply reachable_loaded | apply step_startup]).
  assert (Hnone : reachable noDatasetEnv loaded) by apply reachable_loaded.
  destruct (listening_only_when_ready demoEnv (startup demoEnv) Hdemo) as [Hl _].
  destruct (listening_only_when_ready noDatasetEnv loaded Hnone) as [_ [Hx _]].
  split; [reflexivity|]. split.
  - exact (proj1 (Hl eq_refl)).
  - exact (proj1 (Hx (ExternalError "ENOENT") eq_refl)).
Defined.

(** Every state a process reaches is coherent. *)
Lemma reachable_coherent boot p : reachable boot p -> coherent (memory p).
Proof.
  intros Hreach. pose proof (reachable_inv boot p Hreach) as Hinv.
  destruct (phase p) eqn:Hp.
  - subst p. intros ds vs Hd. discriminate Hd.
  - destruct Hinv as [w0 [Hi [Hd [Hv _]]]].
    destruct (initialize_ok boot fresh w0 tt Hi) as [_ [ds0 [_ [_ [_ [Hds [Hvs _]]]]]]].
    intros parsed vs Hd' Hv'. exists ds0. split; congruence.
  - destruct Hinv as [_ [e [w0 [Hi Heq]]]]. subst p.
    unfold startup. rewrite Hi. simpl.
    destruct (initialize_throw boot fresh w0 e Hi) as [_ Hv].
    intros ds vs _ Hv'. rewrite Hv in Hv'. discriminate Hv'.
Qed.

(** ** Identifiers *)

(** C8: the store that [initialize] builds holds, for the i-th record of
    the corpus, the record's search text with the metadata id i (ids are
    0, 1, ... in load order); hence for every result of a sound similarity
    query, indexing the corpus with the result's stored id yields a record,
    the one whose search text the result carries, and this is the record
    [findRelevantExamples] returns for it. *)
Theorem stored_id_dereferences env w0 w :
  initialize env w0 = (Ok tt, w) ->
  exists ds vs,
    cvDataset w = Some (Records ds) /\
    vectorStore w = Some vs /\
    map (fun doc => id (metadata doc)) (docstore vs) = seq 0 (List.length ds) /\
    map pageContent (docstore vs) = map searchText ds /\
    forall env' question numExamples results,
      searchSound env' ->
      similaritySearch env' vs question (countOr3 numExamples) = Ok results ->
      fst (findRelevantExamples env' question numExamples w)
      = Ok (map (fun result => nth_error ds (id (metadata result))) results) /\
      Forall (fun result =>
                exists item,
                  nth_error ds (id (metadata result)) = Some item /\
                  pageContent result = searchText item)
             results.
Proof.
  intros Hi.
  destruct (initialize_ok env w0 w tt Hi) as [_ [ds [_ [_ [_ [Hds [Hvs Hr]]]]]]].
  exists ds, (indexOf ds).
  split; [exact Hds|]. split; [exact Hvs|].
  split; [apply indexOf_ids|]. split; [apply indexOf_texts|].
  intros env' question numExamples results Hsound Hq. split.
  - rewrite findRelevantExamples_run, Hr, Hvs. cbv zeta. rewrite Hq, Hds.
    destruct results; reflexivity.
  - apply Forall_forall. intros result Hin.
    apply indexOf_entry. exact (Hsound _ _ _ _ Hq result Hin).
Qed.

Lemma stored_id_dereferences_witness :
  exists ds vs,
    cvDataset demoWorld = Some (Records ds) /\
    vectorStore demoWorld = Some vs /\
    map (fun doc => id (metadata doc)) (docstore vs) = seq 0 (List.length ds) /\
    map pageContent (docstore vs) = map searchText ds /\
    forall env' question numExamples results,
      searchSound env' ->
      similaritySearch env' vs question (countOr3 numExamples) = Ok results ->
      fst (findRelevantExamples env' question numExamples demoWorld)
      = Ok (map (fun result => nth_error ds (id (metadata result))) results) /\
      Forall (fun result =>
                exists item,
                  nth_error ds (id (metadata result)) = Some item /\
                  pageContent result = searchText item)
             results.
Proof.
  apply (stored_id_dereferences demoEnv fresh demoWorld). reflexivity.
Defined.

(** The demo deployment: a query for one example, then a full prompt. *)
Example demo_retrieval :
  fst (findRelevantExamples demoEnv "What programming languages?" (Some 1) demoWorld)
  = Ok [Some (CVRecord.mk "What languages does Mathieu know?" "Python, JavaScript, Go.")].
Proof. reflexivity. Qed.

Example demo_prompt :
  fst (preparePrompt demoEnv "Hi" demoWorld)
  = Ok (preamble ++ blocksOf demoDataset ++ questionLine "Hi").
Proof. reflexivity. Qed.

(** * Further properties of the code *)

(** ** Traces of the retrieval and of the composer *)

Lemma findRelevantExamples_calls env question numExamples w :
  calls (snd (findRelevantExamples env question numExamples w))
  = (calls w ++
       match isInitialized w, vectorStore w with
       | true, Some _ => [SimilaritySearch question (countOr3 numExamples)]
       | _, _ => []
       end)%list.
Proof.
  rewrite findRelevantExamples_run.
  destruct (isInitialized w); [|now rewrite app_nil_r].
  destruct (vectorStore w) as [vs|]; [|now rewrite app_nil_r]. cbv zeta.
  destruct (similaritySearch env vs question _) as [results|e];
    [destruct (lookupResults (cvDataset w) results)|]; reflexivity.
Qed.

Lemma preparePrompt_calls env question w :
  calls (snd (preparePrompt env question w))
  = (calls w ++
       match isInitialized w, vectorStore w with
       | true, Some _ => [SimilaritySearch question 3]
       | _, _ => []
       end)%list.
Proof.
  pose proof (findRelevantExamples_calls env question None w) as Hc.
  rewrite preparePrompt_run.
  destruct (isInitialized w); [|now rewrite app_nil_r].
  destruct (findRelevantExamples env question None w) as [[found|e] w'];
    simpl in Hc |- *; [destruct (appendExamples found preamble)|]; exact Hc.
Qed.

(** X12: the retrieval never throws, whatever the state and whatever the
    index answers; it changes no module-level variable and issues at most
    one similarity query, for the given question and count. *)
Theorem findRelevantExamples_is_safe env question numExamples w :
  exists found w',
    findRelevantExamples env question numExamples w = (Ok found, w') /\
    sameGlobals w w' /\
    (calls w' = calls w \/
     calls w' = (calls w ++ [SimilaritySearch question (countOr3 numExamples)])%list).
Proof.
  pose proof (findRelevantExamples_never_throws env question numExamples w) as [found Hf].
  pose proof (findRelevantExamples_globals env question numExamples w) as Hg.
  pose proof (findRelevantExamples_calls env question numExamples w) as Hc.
  destruct (findRelevantExamples env question numExamples w) as [r w'].
  simpl in Hf, Hg, Hc. subst r. exists found, w'.
  split; [reflexivity|]. split; [exact Hg|].
  rewrite Hc. destruct (isInitialized w); [|left; apply app_nil_r].
  destruct (vectorStore w); [right; reflexivity | left; apply app_nil_r].
Qed.

(** ** Prompts over retrieved records *)

Lemma deref_stored ds results :
  incl results (docstore (indexOf ds)) ->
  exists examples,
    deref ds results = map Some examples /\
    Forall2 (fun result example => pageContent result = searchText example)
            results examples /\
    incl examples ds.
Proof.
  induction results as [|r results IH]; intros Hin.
  - exists []. repeat split; [constructor | intros x []].
  - destruct (indexOf_entry ds r (Hin r (or_introl eq_refl))) as [item [Hnth Htext]].
    destruct IH as [examples [Hd [Hf Hi]]].
    { intros x Hx. apply Hin. now right. }
    exists (item :: examples). simpl. rewrite Hnth, <- Hd.
    split; [reflexivity|]. split; [now constructor|].
    intros x [Hx|Hx]; [subst x; eapply nth_error_In; exact Hnth | now apply Hi].
Qed.

Lemma lookupResults_deref ds results :
  lookupResults (Some (Records ds)) results = Ok (deref ds results).
Proof. destruct results; reflexivity. Qed.

(** X1: in a ready state whose store was built from the dataset, when the
    similarity query answers with stored documents, the prompt is the
    preamble, then one block per result in the order of the results, each
    block made from the dataset record at the result's id, then the
    question line; the fallback notice is not added. *)
Theorem preparePrompt_with_matches env question w ds vs results :
  coherent w -> searchSound env ->
  isInitialized w = true ->
  cvDataset w = Some (Records ds) ->
  vectorStore w = Some vs ->
  similaritySearch env vs question 3 = Ok results ->
  exists examples,
    deref ds results = map Some examples /\
    Forall2 (fun result example => pageContent result = searchText example)
            results examples /\
    preparePrompt env question w
    = (Ok (preamble ++ blocksOf examples ++ questionLine question),
       record_call (SimilaritySearch question 3) w).
Proof.
  intros Hc Hs Hr Hd Hv Hq.
  pose proof (Hs _ _ _ _ Hq) as Hin. rewrite (coherent_index w ds vs Hc Hd Hv) in Hin.
  destruct (deref_stored ds results Hin) as [examples [Hde [Hf2 _]]].
  exists examples. split; [exact Hde|]. split; [exact Hf2|].
  rewrite preparePrompt_run, Hr, findRelevantExamples_run, Hr, Hv. cbv zeta.
  simpl countOr3. rewrite Hq, Hd, lookupResults_deref, Hde, appendExamples_all.
  now rewrite append_assoc.
Qed.

Lemma preparePrompt_with_matches_witness :
  exists examples,
    deref demoDataset (firstn 3 (docstore (indexOf demoDataset))) = map Some examples /\
    Forall2 (fun result example => pageContent result = searchText example)
            (firstn 3 (docstore (indexOf demoDataset))) examples /\
    preparePrompt demoEnv "Hi" demoWorld
    = (Ok (preamble ++ blocksOf examples ++ questionLine "Hi"),
       record_call (SimilaritySearch "Hi" 3) demoWorld).
Proof.
  apply (preparePrompt_with_matches demoEnv "Hi" demoWorld demoDataset
           (indexOf demoDataset));
    [exact demoWorld_coherent | exact demoEnv_searchSound
     | reflexivity | reflexivity | reflexivity | reflexivity].
Defined.

(** ** Requests that end in the failure reply *)

(** The loop throws as soon as it meets an element that is [undefined]. *)
Lemma appendExamples_undefined found prompt :
  Exists (fun o : option CVRecord.t => o = None) found ->
  exists e, appendExamples found prompt = Throw e.
Proof.
  intros H. revert prompt.
  induction H as [o l Ho | o l _ IH]; intros prompt.
  - subst o. simpl. eauto.
  - destruct o as [example|]; simpl; [apply IH | eauto].
Qed.

Lemma deref_out_of_range ds results :
  Exists (fun result => List.length ds <= id (metadata result)) results ->
  Exists (fun o : option CVRecord.t => o = None) (deref ds results).
Proof.
  induction 1 as [r l Hr | r l _ IH]; simpl.
  - apply Exists_cons_hd. now apply nth_error_None.
  - now apply Exists_cons_tl.
Qed.

(** What a request leaves behind when the composer throws. *)
Lemma postChat_on_prompt_error env body w e w1 :
  preparePrompt env (ChatBody.message body) w = (Throw e, w1) ->
  postChat env body w
  = (Ok failureReply, {| world := w1; historyArray := suppliedHistory body |}).
Proof.
  intros Hp. rewrite postChat_run. cbv zeta. now rewrite Hp.
Qed.

(** X2: when a similarity result carries an id that is no index of the
    dataset, the looked-up example is undefined, the composer throws while
    appending the blocks, and the route answers with the failure reply: the
    completion provider is not called and the history is left as supplied. *)
Theorem stray_id_fails_request env body w ds vs results :
  isInitialized w = true ->
  cvDataset w = Some (Records ds) ->
  vectorStore w = Some vs ->
  similaritySearch env vs (ChatBody.message body) 3 = Ok results ->
  Exists (fun result => List.length ds <= id (metadata result)) results ->
  (exists e, fst (preparePrompt env (ChatBody.message body) w) = Throw e) /\
  exists f,
    postChat env body w = (Ok failureReply, f) /\
    historyArray f = suppliedHistory body /\
    submitted (calls (world f)) = submitted (calls w).
Proof.
  intros Hr Hd Hv Hq Hex.
  destruct (appendExamples_undefined (deref ds results) preamble
              (deref_out_of_range ds results Hex)) as [e He].
  assert (Hp : preparePrompt env (ChatBody.message body) w
               = (Throw e, record_call (SimilaritySearch (ChatBody.message body) 3) w)).
  { rewrite preparePrompt_run, Hr, findRelevantExamples_run, Hr, Hv. cbv zeta.
    simpl countOr3. now rewrite Hq, Hd, lookupResults_deref, He. }
  split; [exists e; now rewrite Hp|].
  eexists. split; [exact (postChat_on_prompt_error env body w e _ Hp)|].
  split; [reflexivity|]. simpl. rewrite submitted_app. simpl. apply app_nil_r.
Qed.

Lemma stray_id_fails_request_witness :
  (exists e, fst (preparePrompt strayEnv (ChatBody.message demoBody) demoWorld) = Throw e) /\
  exists f,
    postChat strayEnv demoBody demoWorld = (Ok failureReply, f) /\
    historyArray f = suppliedHistory demoBody /\
    submitted (calls (world f)) = submitted (calls demoWorld).
Proof.
  apply (stray_id_fails_request strayEnv demoBody demoWorld demoDataset
           (indexOf demoDataset)
           [ {| pageContent := "stale"; metadata := {| id := 7 |} |} ]);
    try reflexivity.
  apply Exists_cons_hd. simpl. lia.
Defined.

(** X3: when the provider answers without any choice, or with a first
    choice whose content is null, reading the text throws after the call was
    made; the route answers with the failure reply and the history is left
    as supplied, no turn having been pushed. *)
Theorem malformed_completion_fails_request env body w prompt w1 completion :
  preparePrompt env (ChatBody.message body) w = (Ok prompt, w1) ->
  chat_completions_create env
    (completionParams (fullConversation (suppliedHistory body) prompt)) = Ok completion ->
  (OpenAI.choices completion = [] \/
   exists choice rest,
     OpenAI.choices completion = choice :: rest /\
     OpenAI.content (OpenAI.message choice) = None) ->
  exists f,
    postChat env body w = (Ok failureReply, f) /\
    historyArray f = suppliedHistory body /\
    calls (world f)
    = (calls w1 ++ [ChatCompletionsCreate
                      (completionParams
                         (fullConversation (suppliedHistory body) prompt))])%list.
Proof.
  intros Hp Hc Hbad.
  assert (Ht : exists e, firstChoiceText env completion = Throw e).
  { unfold firstChoiceText.
    destruct Hbad as [Hnil | [choice [rest [Hcons Hnull]]]].
    - rewrite Hnil. eauto.
    - rewrite Hcons, Hnull. eauto. }
  destruct Ht as [e Ht].
  rewrite postChat_run. cbv zeta. rewrite Hp, Hc, Ht.
  eexists. split; [reflexivity|]. split; reflexivity.
Qed.

Lemma malformed_completion_fails_request_witness :
  exists f,
    postChat noChoiceEnv demoBody demoWorld = (Ok failureReply, f) /\
    historyArray f = suppliedHistory demoBody /\
    calls (world f)
    = (calls (snd (preparePrompt noChoiceEnv (ChatBody.message demoBody) demoWorld))
         ++ [ChatCompletionsCreate
               (completionParams
                  (fullConversation (suppliedHistory demoBody)
                     (preamble ++ blocksOf demoDataset
                               ++ questionLine (ChatBody.message demoBody))))])%list.
Proof.
  apply (malformed_completion_fails_request noChoiceEnv demoBody demoWorld
           (preamble ++ blocksOf demoDataset ++ questionLine (ChatBody.message demoBody))
           (snd (preparePrompt noChoiceEnv (ChatBody.message demoBody) demoWorld))
           {| OpenAI.choices := [] |});
    [reflexivity | reflexivity | left; reflexivity].
Defined.

(** X4: the route never lets an exception escape.  Every request ends in a
    reply, which is either status 200 with a history two turns longer than
    the supplied one, or the fixed failure reply (status 500, no history)
    with the supplied array untouched. *)
Theorem postChat_always_replies env body w :
  exists reply f,
    postChat env body w = (Ok reply, f) /\
    ((Reply.status reply = 200 /\
      exists history',
        Reply.conversationHistory reply = Some history' /\
        historyArray f = history' /\
        List.length history' = List.length (suppliedHistory body) + 2) \/
     (reply = failureReply /\ historyArray f = suppliedHistory body)).
Proof.
  rewrite postChat_run. cbv zeta.
  destruct (preparePrompt env _ w) as [[prompt|e] w1]; [|eauto 6].
  destruct (chat_completions_create env _) as [completion|e]; [|eauto 6].
  destruct (firstChoiceText env completion) as [aiResponse|e]; [|eauto 6].
  eexists. eexists. split; [reflexivity|]. left. split; [reflexivity|].
  eexists. split; [reflexivity|]. split; [reflexivity|].
  rewrite !length_app. simpl. lia.
Qed.

(** The calls one request adds to the trace. *)
Lemma postChat_calls env body w :
  exists chatCalls,
    calls (world (snd (postChat env body w)))
    = (calls (snd (preparePrompt env (ChatBody.message body) w)) ++ chatCalls)%list /\
    (chatCalls = [] \/
     exists prompt,
       fst (preparePrompt env (ChatBody.message body) w) = Ok prompt /\
       chatCalls = [ChatCompletionsCreate
                      (completionParams
                         (fullConversation (suppliedHistory body) prompt))]).
Proof.
  rewrite postChat_run. cbv zeta.
  destruct (preparePrompt env _ w) as [[prompt|e] w1]; simpl.
  - exists [ChatCompletionsCreate
              (completionParams (fullConversation (suppliedHistory body) prompt))].
    split; [|right; eauto].
    destruct (chat_completions_create env _) as [completion|err];
      [destruct (firstChoiceText env completion)|]; reflexivity.
  - exists []. split; [now rewrite app_nil_r | now left].
Qed.

(** X5: one request issues at most two external calls, in this order: at
    most one similarity query, for the raw message and three examples, and
    none when the readiness flag is false; then at most one completion
    call, always with the fixed model and sampling parameters and with the
    conversation built from the supplied history and the composed prompt. *)
Theorem postChat_call_budget env body w :
  exists searchCalls chatCalls,
    calls (world (snd (postChat env body w)))
    = (calls w ++ searchCalls ++ chatCalls)%list /\
    (searchCalls = [] \/
     searchCalls = [SimilaritySearch (ChatBody.message body) 3]) /\
    (isInitialized w = false -> searchCalls = []) /\
    (chatCalls = [] \/
     exists prompt,
       fst (preparePrompt env (ChatBody.message body) w) = Ok prompt /\
       chatCalls = [ChatCompletionsCreate
                      (completionParams
                         (fullConversation (suppliedHistory body) prompt))]).
Proof.
  destruct (postChat_calls env body w) as [chatCalls [Hc Hshape]].
  rewrite preparePrompt_calls in Hc.
  exists (match isInitialized w, vectorStore w with
          | true, Some _ => [SimilaritySearch (ChatBody.message body) 3]
          | _, _ => []
          end), chatCalls.
  split; [now rewrite Hc, app_assoc|]. split; [|split; [|exact Hshape]].
  - destruct (isInitialized w); [destruct (vectorStore w)|]; auto.
  - intros Hr. now rewrite Hr.
Qed.

(** X14: were a request handled while the readiness flag is false, the
    route would issue no similarity query and submit the fallback prompt:
    the preamble, the fallback notice and the question line. *)
Theorem postChat_not_ready env body w :
  isInitialized w = false ->
  let prompt :=
    preamble ++ fallbackNotice ++ questionLine (ChatBody.message body) in
  calls (world (snd (postChat env body w)))
  = (calls w ++ [ChatCompletionsCreate
                   (completionParams
                      (fullConversation (suppliedHistory body) prompt))])%list.
Proof.
  intros Hr. cbv zeta.
  assert (Hp : preparePrompt env (ChatBody.message body) w
               = (Ok (preamble ++ fallbackNotice ++ questionLine (ChatBody.message body)), w)).
  { rewrite preparePrompt_run, Hr. now rewrite append_assoc. }
  rewrite postChat_run. cbv zeta. rewrite Hp.
  destruct (chat_completions_create env _) as [completion|err];
    [destruct (firstChoiceText env completion)|]; reflexivity.
Qed.

Lemma postChat_not_ready_witness :
  calls (world (snd (postChat demoEnv demoBody fresh)))
  = [ChatCompletionsCreate
       (completionParams
          (fullConversation demoHistory
             (preamble ++ fallbackNotice ++ questionLine "What programming languages?")))].
Proof.
  apply (postChat_not_ready demoEnv demoBody fresh). reflexivity.
Defined.

(** ** Start-up outcomes *)



(** What [initialize] adds to the trace when it succeeds. *)
Lemma initialize_ok_calls env w0 w u :
  initialize env w0 = (Ok u, w) ->
  exists ds,
    cvDataset w = Some (Records ds) /\
    calls w = (calls w0 ++ [ReadFile "cv_dataset.json" "utf8";
                            FromTexts (map searchText ds)
                                      (mapi (fun _ i => {| id := i |}) ds)])%list.
Proof.
  rewrite initialize_run. cbv zeta.
  destruct (fs_readFile env _ _) as [data|e]; [|discriminate].
  destruct (JSON_parse env data) as [[ds|at_index]|e]; [|discriminate|discriminate].
  destruct (embedDocuments env _) as [[]|e]; [|discriminate].
  intros H; inversion H; subst. exists ds. simpl.
  split; [reflexivity | now rewrite <- app_assoc].
Qed.

(** The i-th stored document, with ids counted from [k]. *)
Lemma zipped_nth (l : list CVRecord.t) (k i : nat) :
  nth_error
    (map (fun p : string * Metadata => {| pageContent := fst p; metadata := snd p |})
         (combine (map searchText l) (mapi_from k (fun _ j => {| id := j |}) l))) i
  = option_map (fun item => {| pageContent := searchText item;
                               metadata := {| id := k + i |} |})
               (nth_error l i).
Proof.
  revert k i; induction l as [|x l IH]; intros k i; simpl.
  - now destruct i.
  - destruct i as [|i]; simpl; [now rewrite Nat.add_0_r|].
    rewrite IH. now rewrite Nat.add_succ_r.
Qed.

(** X11: the store built by a successful [initialize] has one document
    per record and no more; the document at position i carries the search
    text of record i and the id i, so no two documents share an id even
    when two records have the same text. *)
Theorem built_store_entries env w0 w :
  initialize env w0 = (Ok tt, w) ->
  exists ds vs,
    cvDataset w = Some (Records ds) /\
    vectorStore w = Some vs /\
    List.length (docstore vs) = List.length ds /\
    NoDup (map (fun doc => id (metadata doc)) (docstore vs)) /\
    forall i,
      nth_error (docstore vs) i
      = option_map (fun item => {| pageContent := searchText item;
                                   metadata := {| id := i |} |})
                   (nth_error ds i).
Proof.
  intros Hi.
  destruct (initialize_ok env w0 w tt Hi) as [_ [ds [_ [_ [_ [Hds [Hvs _]]]]]]].
  exists ds, (indexOf ds).
  split; [exact Hds|]. split; [exact Hvs|]. split; [|split].
  - rewrite <- (length_map pageContent), indexOf_texts. apply length_map.
  - rewrite indexOf_ids. apply seq_NoDup.
  - intros i. unfold indexOf, mapi; simpl. apply zipped_nth.
Qed.

Lemma built_store_entries_witness :
  exists ds vs,
    cvDataset demoWorld = Some (Records ds) /\
    vectorStore demoWorld = Some vs /\
    List.length (docstore vs) = List.length ds /\
    NoDup (map (fun doc => id (metadata doc)) (docstore vs)) /\
    forall i,
      nth_error (docstore vs) i
      = option_map (fun item => {| pageContent := searchText item;
                                   metadata := {| id := i |} |})
                   (nth_error ds i).
Proof.
  apply (built_store_entries demoEnv fresh demoWorld). reflexivity.
Defined.

(** ** A serving process *)

Lemma demoServing_reachable : reachable demoEnv demoServing.
Proof.
  eapply reachable_step.
  - eapply reachable_step; [apply reachable_loaded | apply step_startup].
  - exact (step_request demoEnv demoEnv (PostChat demoBody) demoWorld).
Qed.

(** What every listening state holds. *)
Lemma listening_state boot p :
  reachable boot p -> phase p = Listening ->
  exists w0 ds,
    initialize boot fresh = (Ok tt, w0) /\
    sameGlobals w0 (memory p) /\
    cvDataset (memory p) = Some (Records ds) /\
    vectorStore (memory p) = Some (indexOf ds) /\
    isInitialized (memory p) = true.
Proof.
  intros Hreach Hl. pose proof (reachable_inv boot p Hreach) as Hinv.
  rewrite Hl in Hinv. destruct Hinv as [w0 [Hi Hg]].
  destruct (initialize_ok boot fresh w0 tt Hi) as [_ [ds [_ [_ [_ [Hds [Hvs Hr]]]]]]].
  exists w0, ds. destruct Hg as [Hd [Hv Hf]].
  split; [exact Hi|]. split; [repeat split; assumption|].
  repeat split; congruence.
Qed.

(** X6: across any sequence of requests the corpus, the vector store and
    the readiness flag stay exactly as start-up left them: no request
    writes a module-level variable, and the flag is never reset. *)
Theorem serving_keeps_globals boot p :
  reachable boot p -> phase p = Listening ->
  sameGlobals (memory (startup boot)) (memory p).
Proof.
  intros Hreach Hl.
  destruct (listening_state boot p Hreach Hl) as [w0 [ds [Hi [Hg _]]]].
  unfold startup. now rewrite Hi.
Qed.

Lemma serving_keeps_globals_witness :
  sameGlobals (memory (startup demoEnv)) (memory demoServing).
Proof.
  apply (serving_keeps_globals demoEnv demoServing demoServing_reachable).
  reflexivity.
Defined.

(** X7: whenever the server is there to answer [GET /health], it reports
    status "ok" with [initialized] true, and answering changes nothing. *)
Theorem health_reports_ready boot p :
  reachable boot p -> phase p = Listening ->
  healthRoute (memory p)
  = (Ok {| healthStatus := "ok"; initialized := true |}, memory p).
Proof.
  intros Hreach Hl.
  destruct (listening_state boot p Hreach Hl) as [_ [_ [_ [_ [_ [_ Hr]]]]]].
  unfold healthRoute, gets; simpl. unfold js_bind, js_ret; simpl.
  now rewrite Hr.
Qed.

Lemma health_reports_ready_witness :
  healthRoute (memory demoServing)
  = (Ok {| healthStatus := "ok"; initialized := true |}, memory demoServing).
Proof.
  apply (health_reports_ready demoEnv demoServing demoServing_reachable).
  reflexivity.
Defined.

(** X13: in a listening process the fallback branch of the composer is
    never taken: for every question and every sound answer of the index,
    the prompt is the preamble, blocks of records of the corpus, and the
    question line. *)
Theorem serving_prompt_shape boot p env question :
  reachable boot p -> phase p = Listening -> searchSound env ->
  exists ds examples,
    cvDataset (memory p) = Some (Records ds) /\
    incl examples ds /\
    fst (preparePrompt env question (memory p))
    = Ok (preamble ++ blocksOf examples ++ questionLine question).
Proof.
  intros Hreach Hl Hs.
  destruct (listening_state boot p Hreach Hl) as [_ [ds [_ [_ [Hd [Hv Hr]]]]]].
  exists ds.
  rewrite preparePrompt_run, Hr, findRelevantExamples_run, Hr, Hv. cbv zeta.
  destruct (similaritySearch env (indexOf ds) question 3) as [results|e] eqn:Hq.
  - destruct (deref_stored ds results (Hs _ _ _ _ Hq)) as [examples [Hde [_ Hin]]].
    exists examples. split; [exact Hd|]. split; [exact Hin|].
    simpl countOr3. rewrite Hq, Hd, lookupResults_deref, Hde, appendExamples_all.
    now rewrite append_assoc.
  - exists []. split; [exact Hd|]. split; [intros x []|].
    simpl countOr3. now rewrite Hq.
Qed.

Lemma serving_prompt_shape_witness :
  exists ds examples,
    cvDataset (memory demoServing) = Some (Records ds) /\
    incl examples ds /\
    fst (preparePrompt demoEnv "Hi" (memory demoServing))
    = Ok (preamble ++ blocksOf examples ++ questionLine "Hi").
Proof.
  apply (serving_prompt_shape demoEnv demoServing demoEnv "Hi"
           demoServing_reachable eq_refl demoEnv_searchSound).
Defined.

(** ** The corpus is loaded once *)

Lemma loadCalls_app (cs cs' : list Call) :
  loadCalls (cs ++ cs') = (loadCalls cs ++ loadCalls cs')%list.
Proof. apply filter_app. Qed.

(** Serving a request neither reads the dataset nor builds a store. *)
Lemma serve_loadCalls env request w :
  loadCalls (calls (serve env request w)) = loadCalls (calls w).
Proof.
  destruct request as [body|]; [|reflexivity]. simpl.
  destruct (postChat_calls env body w) as [chatCalls [Hc Hshape]].
  rewrite Hc, preparePrompt_calls, !loadCalls_app.
  assert (Hchat : loadCalls chatCalls = []).
  { destruct Hshape as [-> | [prompt [_ ->]]]; reflexivity. }
  rewrite Hchat, app_nil_r.
  destruct (isInitialized w); [destruct (vectorStore w)|]; simpl; apply app_nil_r.
Qed.

Lemma reachable_loads boot p :
  reachable boot p ->
  match phase p with
  | Listening =>
      exists ds,
        cvDataset (memory p) = Some (Records ds) /\
        loadCalls (calls (memory p))
        = [ReadFile "cv_dataset.json" "utf8";
           FromTexts (map searchText ds) (mapi (fun _ i => {| id := i |}) ds)]
  | _ => True
  end.
Proof.
  induction 1 as [|p q Hreach IH Hstep]; [exact I|].
  destruct Hstep as [|env request w].
  - unfold startup.
    destruct (initialize boot fresh) as [[u|e] w0] eqn:Hi; simpl; [|exact I].
    destruct (initialize_ok_calls boot fresh w0 u Hi) as [ds [Hd Hc]].
    exists ds. split; [exact Hd | now rewrite Hc].
  - simpl in *. destruct IH as [ds [Hd Hc]].
    exists ds. rewrite serve_loadCalls.
    destruct (serve_globals env request w) as [Hd' _].
    split; [congruence | exact Hc].
Qed.

(** X9: the dataset file is read once and the store is built once, at
    start-up and from the corpus that is then served: in the trace of a
    listening process, after any number of requests, the only loading calls
    are that one [readFile] and that one [fromTexts], with one text and one
    id per record. *)
Theorem corpus_loaded_once boot p :
  reachable boot p -> phase p = Listening ->
  exists ds,
    cvDataset (memory p) = Some (Records ds) /\
    loadCalls (calls (memory p))
    = [ReadFile "cv_dataset.json" "utf8";
       FromTexts (map searchText ds) (mapi (fun _ i => {| id := i |}) ds)].
Proof.
  intros Hreach Hl. pose proof (reachable_loads boot p Hreach) as H.
  now rewrite Hl in H.
Qed.

Lemma corpus_loaded_once_witness :
  exists ds,
    cvDataset (memory demoServing) = Some (Records ds) /\
    loadCalls (calls (memory demoServing))
    = [ReadFile "cv_dataset.json" "utf8";
       FromTexts (map searchText ds) (mapi (fun _ i => {| id := i |}) ds)].
Proof.
  apply (corpus_loaded_once demoEnv demoServing demoServing_reachable).
  reflexivity.
Defined.

(** ** Exchanges in sequence *)

(** The loop only ever appends to the prompt it was given. *)
Lemma appendExamples_extends found prompt prompt' :
  appendExamples found prompt = Ok prompt' ->
  exists context, prompt' = prompt ++ context.
Proof.
  revert prompt; induction found as [|o l IH]; intros prompt; simpl.
  - intros H; inversion H. exists "". now rewrite append_empty.
  - destruct o as [example|]; [|discriminate].
    intros H. destruct (IH _ H) as [context Hc].
    exists (exampleBlock example ++ context). now rewrite <- append_assoc.
Qed.

(** Whatever the state, a prompt that is returned is a composed one. *)
Lemma preparePrompt_returns_composed env question w prompt :
  fst (preparePrompt env question w) = Ok prompt ->
  exists context, prompt = preamble ++ context ++ questionLine question.
Proof.
  rewrite preparePrompt_run.
  destruct (isInitialized w).
  - destruct (findRelevantExamples env question None w) as [[found|e] w'];
      [|discriminate].
    destruct (appendExamples found preamble) as [p|e] eqn:Ha; [|discriminate].
    destruct (appendExamples_extends _ _ _ Ha) as [context Hc].
    subst p. cbn [fst]. intros H. injection H as <-. exists context.
    exact (append_assoc preamble context (questionLine question)).
  - cbn [fst]. intros H. injection H as <-. exists fallbackNotice.
    exact (append_assoc preamble fallbackNotice (questionLine question)).
Qed.

(** A request that ended with status 200, taken apart. *)
Lemma postChat_ok_inv env body w reply f :
  postChat env body w = (Ok reply, f) ->
  Reply.status reply = 200 ->
  exists prompt aiResponse,
    fst (preparePrompt env (ChatBody.message body) w) = Ok prompt /\
    reply = {| Reply.status := 200;
               Reply.response := aiResponse;
               Reply.conversationHistory :=
                 Some ((suppliedHistory body ++ [userTurn (ChatBody.message body)])
                         ++ [assistantTurn aiResponse])%list |} /\
    calls (world f)
    = (calls (snd (preparePrompt env (ChatBody.message body) w))
         ++ [ChatCompletionsCreate
               (completionParams (fullConversation (suppliedHistory body) prompt))])%list.
Proof.
  rewrite postChat_run. cbv zeta.
  destruct (preparePrompt env _ w) as [[prompt|e] w1];
    [|intros H; inversion H; discriminate].
  destruct (chat_completions_create env _) as [completion|e];
    [|intros H; inversion H; discriminate].
  destruct (firstChoiceText env completion) as [aiResponse|e];
    intros H; inversion H; [|discriminate].
  intros _. exists prompt, aiResponse. repeat split.
Qed.

(** X10: two successful exchanges compose.  When the client sends back
    the history of a first successful reply with a new message, the second
    successful reply carries the original history followed by four turns:
    role "user" with the first raw message, role "assistant" with the first
    reply, role "user" with the second raw message, role "assistant" with
    the second reply.  The second request submits exactly one conversation:
    the system turn, the original history, the two turns of the first
    exchange, then one turn with role "user" whose content is the prompt
    the composer returned for the second message, which is not that raw
    message. *)
Theorem exchanges_compose env1 env2 body w1 w2 reply1 f1 message2 reply2 f2 :
  postChat env1 body w1 = (Ok reply1, f1) ->
  Reply.status reply1 = 200 ->
  postChat env2 (followUp reply1 message2) w2 = (Ok reply2, f2) ->
  Reply.status reply2 = 200 ->
  Reply.conversationHistory reply2
  = Some (suppliedHistory body
            ++ [ {| role := "user"; content := ChatBody.message body |};
                 {| role := "assistant"; content := Reply.response reply1 |};
                 {| role := "user"; content := message2 |};
                 {| role := "assistant"; content := Reply.response reply2 |} ])%list /\
  exists prompt2,
    fst (preparePrompt env2 message2 w2) = Ok prompt2 /\
    prompt2 <> message2 /\
    submitted (calls (world f2))
    = (submitted (calls w2)
         ++ [[ {| role := "system";
               content :=
                 "You are a virtual assistant specialized in answering questions about Mathieu Vialatte's CV. "
                 ++ String "010"
                 ("        Use only the information provided in the examples or in the question to answer. "
                 ++ String "010"
                 ("        If information is not available, clearly state so. "
                 ++ String "010"
                 ("        Focus on Mathieu's skills, experience, and achievements. "
                 ++ String "010"
                  "        Respond concisely and professionally."))) |} ]
             ++ suppliedHistory body
             ++ [ {| role := "user"; content := ChatBody.message body |};
                  {| role := "assistant"; content := Reply.response reply1 |} ]
             ++ [ {| role := "user"; content := prompt2 |} ]])%list.
Proof.
  intros H1 S1 H2 S2.
  destruct (postChat_ok_inv env1 body w1 reply1 f1 H1 S1) as [prompt1 [ai1 [_ [E1 _]]]].
  destruct (postChat_ok_inv env2 _ w2 reply2 f2 H2 S2) as [prompt2 [ai2 [P2 [E2 C2]]]].
  assert (Hh : suppliedHistory (followUp reply1 message2)
               = (suppliedHistory body
                    ++ [userTurn (ChatBody.message body);
                        assistantTurn (Reply.response reply1)])%list).
  { rewrite E1. unfold suppliedHistory at 1, followUp. simpl.
    now rewrite <- app_assoc. }
  rewrite Hh in E2, C2. simpl in P2, C2. split.
  - rewrite E2. simpl. now rewrite <- !app_assoc.
  - exists prompt2. split; [exact P2|]. split.
    + destruct (preparePrompt_returns_composed env2 message2 w2 prompt2 P2)
        as [context Hc].
      rewrite Hc. apply composed_differs.
    + rewrite C2, submitted_app, preparePrompt_submits_nothing.
      unfold fullConversation. simpl. now rewrite <- app_assoc.
Qed.

Lemma exchanges_compose_witness :
  postChat demoEnv demoBody demoWorld
    = (Ok demoReply, snd (postChat demoEnv demoBody demoWorld)) /\
  postChat demoEnv (followUp demoReply "And where did he study?") demoWorld
    = (Ok demoReply2,
       snd (postChat demoEnv (followUp demoReply "And where did he study?") demoWorld)) /\
  Reply.conversationHistory demoReply2
  = Some (demoHistory
            ++ [ {| role := "user"; content := "What programming languages?" |};
                 {| role := "assistant"; content := "Python, JavaScript and Go." |};
                 {| role := "user"; content := "And where did he study?" |};
                 {| role := "assistant"; content := "Python, JavaScript and Go." |} ])%list.
Proof.
  assert (H1 : postChat demoEnv demoBody demoWorld
               = (Ok demoReply, snd (postChat demoEnv demoBody demoWorld)))
    by reflexivity.
  assert (H2 : postChat demoEnv (followUp demoReply "And where did he study?") demoWorld
               = (Ok demoReply2,
                  snd (postChat demoEnv
                         (followUp demoReply "And where did he study?") demoWorld)))
    by reflexivity.
  split; [exact H1|]. split; [exact H2|].
  exact (proj1 (exchanges_compose demoEnv demoEnv demoBody demoWorld demoWorld
                  demoReply _ "And where did he study?" demoReply2 _
                  H1 eq_refl H2 eq_refl)).
Defined.
